(** * Entitlement-certificate healing: [subscription_manager/healinglib.py]

    A shallow embedding of [HealingUpdateAction.perform] and of
    [HealingActionInvoker._do_update], and the properties of one healing
    cycle.

    The collaborators of the module (the entitlement server connection
    [uep], the certificate sorter [cs], the plugin manager and the
    entitlement-certificate updater) live outside the file.  They are taken
    as an interface ([Collaborators]) over an arbitrary state of the outside
    world; every method call on one of them may return or raise.  The cycle
    runs in a state-and-exception monad that threads the world, the
    [self.report] attribute, the chronological list of collaborator calls
    with their outcomes, and the log records. *)

From stdpp Require Import base option list strings gmap.
From Stdlib Require Import ZArith Lia.

Local Open Scope string_scope.
Local Open Scope Z_scope.
Local Open Scope list_scope.

(** ** Data *)

(** JSON-like values held by the dicts the server returns. *)
Inductive pyval :=
| PyNone
| PyBool (b : bool)
| PyInt (n : Z)
| PyStr (s : string).

(** Python truth value, as used by [not consumer["autoheal"]]. *)
Definition truthy (v : pyval) : bool :=
  match v with
  | PyNone => false
  | PyBool b => b
  | PyInt n => negb (n =? 0)
  | PyStr s => negb (String.eqb s "")
  end.

(** A Python [dict] with string keys: the consumer record, an entitlement. *)
Abbreviation dict := (gmap string pyval).

(** An aware [datetime.datetime] in GMT, as microseconds since the epoch. *)
Definition datetime := Z.

(** [datetime.timedelta(days=d)], in microseconds. *)
Definition timedelta_days (d : Z) : Z := d * 86400000000.

(** Instances of Python's [Exception] class, which is what the
    [except Exception] clause of [perform] catches. *)
Inductive Exception :=
| ServiceError (msg : string)
| HookError (msg : string)
| RuntimeError (msg : string).

(** Modelled from the spec: the class [EntCertUpdateReport] of [entcertlib],
    which is not part of the file.  The spec describes the report as a list
    of grants received and a list of errors encountered; the source names
    the error list [_exceptions].  [perform] only ever appends to
    [_exceptions]. *)
Record EntCertUpdateReport := mkReport {
  grants : list dict;
  _exceptions : list Exception
}.

(** Modelled from the spec: the constructor [EntCertUpdateReport()], a
    report created fresh, with no grants and no errors. *)
Definition EntCertUpdateReport_new : EntCertUpdateReport :=
  {| grants := []; _exceptions := [] |}.

(** What [perform] hands back: the literal [0] of line 87 or [self.report]. *)
Inductive PerformResult :=
| RInt (n : Z)
| RReport (r : EntCertUpdateReport).

(** Outcome of a call: a value, or a raised exception. *)
Inductive Res (A : Type) :=
| Returned (a : A)
| Raised (e : Exception).
Arguments Returned {A} a.
Arguments Raised {A} e.

(** ** Collaborator calls and log records *)

(** One call on a collaborator, with its arguments and its outcome. *)
Inductive Event :=
| EvGetConsumer (uuid : string) (res : Res dict)
| EvIsValid (res : Res bool)
| EvCompliantUntil (res : option datetime)
| EvRun (slot : string) (consumer_uuid : string)
        (entitlement_data : option (list dict)) (res : Res unit)
| EvBind (uuid : string) (instant : datetime) (res : Res (list dict))
| EvUpdate (res : Res EntCertUpdateReport).

Inductive Level := DEBUG | WARNING | ERROR.

(** A log message is kept as its pieces: literal text and the datetimes
    substituted for [%s]. *)
Inductive Fragment :=
| Lit (s : string)
| Arg (d : datetime).

Inductive LogRecord :=
| LogMsg (lvl : Level) (msg : list Fragment)
| LogException (e : Exception).

(** The collaborators, over a world state [World]. *)
Record Collaborators (World : Type) := {
  (* inj.require(inj.IDENTITY).uuid *)
  identity_uuid : string;
  (* self.uep.getConsumer(uuid) *)
  uep_getConsumer : string -> World -> Res dict * World;
  (* self.uep.bind(uuid, instant) *)
  uep_bind : string -> datetime -> World -> Res (list dict) * World;
  (* cs.is_valid() *)
  cs_is_valid : World -> Res bool * World;
  (* cs.compliant_until *)
  cs_compliant_until : World -> option datetime;
  (* self.plugin_manager.run(slot, consumer_uuid=..., entitlement_data=...) *)
  plugin_manager_run :
    string -> string -> option (list dict) -> World -> Res unit * World;
  (* cert_updater.update() *)
  cert_updater_update : World -> Res EntCertUpdateReport * World
}.
Arguments identity_uuid {World} _.
Arguments uep_getConsumer {World} _ _ _.
Arguments uep_bind {World} _ _ _ _.
Arguments cs_is_valid {World} _ _.
Arguments cs_compliant_until {World} _ _.
Arguments plugin_manager_run {World} _ _ _ _ _.
Arguments cert_updater_update {World} _ _.

(** ** The monad of a cycle *)

Record State (World : Type) := mkState {
  world : World;
  self_report : EntCertUpdateReport;
  calls : list Event;
  log : list LogRecord
}.
Arguments mkState {World} _ _ _ _.
Arguments world {World} _.
Arguments self_report {World} _.
Arguments calls {World} _.
Arguments log {World} _.

Definition M (World A : Type) : Type := State World -> Res A * State World.

Global Instance M_ret {World} : MRet (M World) :=
  fun A a s => (Returned a, s).

Global Instance M_bind {World} : MBind (M World) :=
  fun A B f m s =>
    match m s with
    | (Returned a, s') => f a s'
    | (Raised e, s') => (Raised e, s')
    end.

(** [try: body  except Exception as e: handler e  else: orelse]. *)
Definition try_except_else {World A B}
    (body : M World A) (handler : Exception -> M World B)
    (orelse : A -> M World B) : M World B :=
  fun s =>
    match body s with
    | (Returned a, s') => orelse a s'
    | (Raised e, s') => handler e s'
    end.

Section Cycle.
Context {World : Type} (C : Collaborators World).

(** A method call on a collaborator: the world moves on and the call is
    recorded with its outcome. *)
Definition invoke {A} (h : World -> Res A * World) (ev : Res A -> Event)
  : M World A :=
  fun s =>
    let '(r, w') := h (world s) in
    (r, mkState w' (self_report s) (calls s ++ [ev r]) (log s)).

Definition getConsumer (uuid : string) : M World dict :=
  invoke (uep_getConsumer C uuid) (EvGetConsumer uuid).

Definition bind (uuid : string) (instant : datetime) : M World (list dict) :=
  invoke (uep_bind C uuid instant) (EvBind uuid instant).

Definition is_valid : M World bool :=
  invoke (cs_is_valid C) EvIsValid.

Definition compliant_until : M World (option datetime) :=
  fun s =>
    let d := cs_compliant_until C (world s) in
    (Returned d,
     mkState (world s) (self_report s) (calls s ++ [EvCompliantUntil d]) (log s)).

Definition run (slot consumer_uuid : string)
    (entitlement_data : option (list dict)) : M World unit :=
  invoke (plugin_manager_run C slot consumer_uuid entitlement_data)
         (EvRun slot consumer_uuid entitlement_data).

Definition update : M World EntCertUpdateReport :=
  invoke (cert_updater_update C) EvUpdate.

Definition logging (r : LogRecord) : M World unit :=
  fun s => (Returned tt,
            mkState (world s) (self_report s) (calls s) (log s ++ [r])).

Definition get_report : M World EntCertUpdateReport :=
  fun s => (Returned (self_report s), s).

Definition set_report (r : EntCertUpdateReport) : M World unit :=
  fun s => (Returned tt, mkState (world s) r (calls s) (log s)).

(** [self.report._exceptions.append(e)] *)
Definition append_exception (e : Exception) : M World unit :=
  fun s =>
    let r := self_report s in
    (Returned tt,
     mkState (world s)
             {| grants := grants r; _exceptions := _exceptions r ++ [e] |}
             (calls s) (log s)).

(** ["autoheal" not in consumer or not consumer["autoheal"]] *)
Definition autoheal_off (consumer : dict) : bool :=
  match consumer !! "autoheal" with
  | None => true
  | Some v => negb (truthy v)
  end.

(** [HealingUpdateAction.perform], lines 79-144.  [now] is the value of
    [datetime.datetime.now(certificate.GMT())]. *)
Definition perform (now : datetime) : M World PerformResult :=
  let uuid := identity_uuid C in
  consumer ← getConsumer uuid;
  if autoheal_off consumer then
    logging (LogMsg WARNING [Lit "Auto-heal disabled on server, skipping."]);;
    mret (RInt 0)
  else
    try_except_else
      (let today := now in
       let tomorrow := today + timedelta_days 1 in
       valid ← is_valid;
       '(valid_today, valid_tomorrow) ←
         (if negb valid then
            logging (LogMsg WARNING
                       [Lit "Found invalid entitlements for today: "; Arg today]);;
            run "pre_auto_attach" uuid None;;
            ents ← bind uuid today;
            run "post_auto_attach" uuid (Some ents);;
            r ← update;
            set_report r;;
            mret (false, false)
          else
            cu ← compliant_until;
            match cu with
            | None =>
                logging (LogMsg WARNING
                  [Lit "Got valid status from server but no valid until date."]);;
                mret (true, false)
            | Some until =>
                if tomorrow >? until then
                  logging (LogMsg WARNING
                    [Lit "Entitlements will be invalid by tomorrow: "; Arg tomorrow]);;
                  run "pre_auto_attach" uuid None;;
                  ents ← bind uuid tomorrow;
                  run "post_auto_attach" uuid (Some ents);;
                  r ← update;
                  set_report r;;
                  mret (true, false)
                else
                  mret (true, true)
            end);
       let msg := [Lit "Entitlement auto healing was checked and entitlements"] in
       let msg :=
         if (valid_today : bool) then
           let msg := msg ++ [Lit " are valid today "; Arg today] in
           if (valid_tomorrow : bool) then
             msg ++ [Lit " and tomorrow "; Arg tomorrow]
           else msg
         else msg in
       logging (LogMsg DEBUG msg))
      (fun e =>
         logging (LogMsg ERROR [Lit "Error attempting to auto-heal:"]);;
         logging (LogException e);;
         append_exception e;;
         r ← get_report;
         mret (RReport r))
      (fun _ =>
         logging (LogMsg DEBUG [Lit "Auto-heal check complete."]);;
         r ← get_report;
         mret (RReport r)).

(** [HealingUpdateAction.__init__]: the injected collaborators are [C];
    [self.report] starts as a fresh [EntCertUpdateReport()]. *)
Definition HealingUpdateAction_init : M World unit :=
  set_report EntCertUpdateReport_new.

(** [HealingActionInvoker._do_update]: a fresh action, then [perform]. *)
Definition _do_update (now : datetime) : M World PerformResult :=
  HealingUpdateAction_init;;
  perform now.

(** One cycle, started in world [w] with nothing called or logged yet. *)
Definition cycle (now : datetime) (w : World) : Res PerformResult * State World :=
  _do_update now (mkState w EntCertUpdateReport_new [] []).

End Cycle.

(** ** Observations on a cycle *)

(** The instants of the [bind] calls, in order. *)
Fixpoint bind_instants (tr : list Event) : list datetime :=
  match tr with
  | [] => []
  | EvBind _ instant _ :: tr' => instant :: bind_instants tr'
  | _ :: tr' => bind_instants tr'
  end.

(** The slots of the hooks dispatched, in order. *)
Fixpoint hook_slots (tr : list Event) : list string :=
  match tr with
  | [] => []
  | EvRun slot _ _ _ :: tr' => slot :: hook_slots tr'
  | _ :: tr' => hook_slots tr'
  end.

(** The outcomes of the [cert_updater.update()] calls, in order. *)
Fixpoint update_calls (tr : list Event) : list (Res EntCertUpdateReport) :=
  match tr with
  | [] => []
  | EvUpdate r :: tr' => r :: update_calls tr'
  | _ :: tr' => update_calls tr'
  end.

(** The exception a call raised, if it raised. *)
Definition raised_by (ev : Event) : option Exception :=
  match ev with
  | EvGetConsumer _ (Raised e)
  | EvIsValid (Raised e)
  | EvRun _ _ _ (Raised e)
  | EvBind _ _ (Raised e)
  | EvUpdate (Raised e) => Some e
  | _ => None
  end.

(** Is the call the account lookup? *)
Definition is_account_lookup (ev : Event) : bool :=
  match ev with
  | EvGetConsumer _ _ => true
  | _ => false
  end.

(** [a] occurs in [tr], and [b] occurs later. *)
Definition precedes (a b : Event) (tr : list Event) : Prop :=
  exists l1 l2 l3, tr = l1 ++ a :: l2 ++ b :: l3.

(** The account record says auto-heal is on. *)
Definition autoheal_on (consumer : dict) : Prop :=
  exists v, consumer !! "autoheal" = Some v /\ truthy v = true.

(** The account record says auto-heal is off, or does not say. *)
Definition autoheal_false_or_absent (consumer : dict) : Prop :=
  consumer !! "autoheal" = None \/
  exists v, consumer !! "autoheal" = Some v /\ truthy v = false.

Definition has_level (lvl : Level) (r : LogRecord) : bool :=
  match r, lvl with
  | LogMsg DEBUG _, DEBUG | LogMsg WARNING _, WARNING | LogMsg ERROR _, ERROR => true
  | LogException _, ERROR => true
  | _, _ => false
  end.

(** ** The paths of a cycle

    Every run of a cycle follows one of the paths below.  [Heal] lists the
    calls of one remediation (pre hook, [bind], post hook, [update]), cut
    short at the first call that raises; [Path] lists the calls, the value
    handed back and the log of a whole cycle. *)

(** [self.report] after [e] was appended to a fresh report. *)
Definition failure_report (e : Exception) : EntCertUpdateReport :=
  {| grants := []; _exceptions := [e] |}.

(** The report handed back once a remediation ended with [out]. *)
Definition report_after (out : Res EntCertUpdateReport) : EntCertUpdateReport :=
  match out with
  | Returned r => r
  | Raised e => failure_report e
  end.

(** The log records that end a cycle: the summary and the completion note,
    or the two error records of the [except] clause. *)
Definition closing_log {A} (msg : list Fragment) (out : Res A) : list LogRecord :=
  match out with
  | Returned _ => [LogMsg DEBUG msg; LogMsg DEBUG [Lit "Auto-heal check complete."]]
  | Raised e => [LogMsg ERROR [Lit "Error attempting to auto-heal:"]; LogException e]
  end.

Inductive Heal (uuid : string) (instant : datetime)
  : list Event -> Res EntCertUpdateReport -> Prop :=
| Heal_pre_raises e :
    Heal uuid instant
      [EvRun "pre_auto_attach" uuid None (Raised e)] (Raised e)
| Heal_bind_raises e :
    Heal uuid instant
      [EvRun "pre_auto_attach" uuid None (Returned tt);
       EvBind uuid instant (Raised e)] (Raised e)
| Heal_post_raises ents e :
    Heal uuid instant
      [EvRun "pre_auto_attach" uuid None (Returned tt);
       EvBind uuid instant (Returned ents);
       EvRun "post_auto_attach" uuid (Some ents) (Raised e)] (Raised e)
| Heal_update_raises ents e :
    Heal uuid instant
      [EvRun "pre_auto_attach" uuid None (Returned tt);
       EvBind uuid instant (Returned ents);
       EvRun "post_auto_attach" uuid (Some ents) (Returned tt);
       EvUpdate (Raised e)] (Raised e)
| Heal_done ents r :
    Heal uuid instant
      [EvRun "pre_auto_attach" uuid None (Returned tt);
       EvBind uuid instant (Returned ents);
       EvRun "post_auto_attach" uuid (Some ents) (Returned tt);
       EvUpdate (Returned r)] (Returned r).

Definition checked : list Fragment :=
  [Lit "Entitlement auto healing was checked and entitlements"].

Inductive Path (uuid : string) (now : datetime)
  : Res PerformResult -> list Event -> list LogRecord -> Prop :=
| Path_lookup_raises e :
    Path uuid now (Raised e) [EvGetConsumer uuid (Raised e)] []
| Path_disabled c :
    autoheal_off c = true ->
    Path uuid now (Returned (RInt 0))
      [EvGetConsumer uuid (Returned c)]
      [LogMsg WARNING [Lit "Auto-heal disabled on server, skipping."]]
| Path_validity_raises c e :
    autoheal_off c = false ->
    Path uuid now (Returned (RReport (failure_report e)))
      [EvGetConsumer uuid (Returned c); EvIsValid (Raised e)]
      (closing_log checked (@Raised unit e))
| Path_today c evs out :
    autoheal_off c = false ->
    Heal uuid now evs out ->
    Path uuid now (Returned (RReport (report_after out)))
      (EvGetConsumer uuid (Returned c) :: EvIsValid (Returned false) :: evs)
      (LogMsg WARNING [Lit "Found invalid entitlements for today: "; Arg now]
         :: closing_log checked out)
| Path_no_until c :
    autoheal_off c = false ->
    Path uuid now (Returned (RReport EntCertUpdateReport_new))
      [EvGetConsumer uuid (Returned c); EvIsValid (Returned true);
       EvCompliantUntil None]
      (LogMsg WARNING [Lit "Got valid status from server but no valid until date."]
         :: closing_log (checked ++ [Lit " are valid today "; Arg now]) (Returned tt))
| Path_covered c until :
    autoheal_off c = false ->
    now + timedelta_days 1 <= until ->
    Path uuid now (Returned (RReport EntCertUpdateReport_new))
      [EvGetConsumer uuid (Returned c); EvIsValid (Returned true);
       EvCompliantUntil (Some until)]
      (closing_log (checked ++ [Lit " are valid today "; Arg now]
                            ++ [Lit " and tomorrow "; Arg (now + timedelta_days 1)])
                   (Returned tt))
| Path_tomorrow c until evs out :
    autoheal_off c = false ->
    now + timedelta_days 1 > until ->
    Heal uuid (now + timedelta_days 1) evs out ->
    Path uuid now (Returned (RReport (report_after out)))
      (EvGetConsumer uuid (Returned c) :: EvIsValid (Returned true)
         :: EvCompliantUntil (Some until) :: evs)
      (LogMsg WARNING [Lit "Entitlements will be invalid by tomorrow: ";
                       Arg (now + timedelta_days 1)]
         :: closing_log (checked ++ [Lit " are valid today "; Arg now]) out).

(** The hook and bind protocol of one remediation at [instant]: the pre
    hook is dispatched; if it raises no bind is issued; if it returns,
    exactly one bind is issued, at [instant], after the hook; if that bind
    returns grants, the post hook is dispatched after it with those
    grants. *)
Definition remediation_at (uuid : string) (instant : datetime) (tr : list Event) : Prop :=
  (exists r, In (EvRun "pre_auto_attach" uuid None r) tr) /\
  (forall e, In (EvRun "pre_auto_attach" uuid None (Raised e)) tr -> bind_instants tr = []) /\
  (In (EvRun "pre_auto_attach" uuid None (Returned tt)) tr ->
     bind_instants tr = [instant] /\
     exists rb, precedes (EvRun "pre_auto_attach" uuid None (Returned tt))
                         (EvBind uuid instant rb) tr) /\
  (forall ents, In (EvBind uuid instant (Returned ents)) tr ->
     exists rp, precedes (EvBind uuid instant (Returned ents))
                         (EvRun "post_auto_attach" uuid (Some ents) rp) tr).

(** ** Scripted collaborators

    A concrete family of collaborators whose answers are fixed in advance;
    the world is the number of calls served so far. *)

Record Script := {
  sc_uuid : string;
  sc_consumer : Res dict;
  sc_valid : Res bool;
  sc_until : option datetime;
  sc_pre : Res unit;
  sc_bind : Res (list dict);
  sc_post : Res unit;
  sc_update : Res EntCertUpdateReport
}.

Definition scripted (sc : Script) : Collaborators nat := {|
  identity_uuid := sc_uuid sc;
  uep_getConsumer := fun _ n => (sc_consumer sc, S n);
  uep_bind := fun _ _ n => (sc_bind sc, S n);
  cs_is_valid := fun n => (sc_valid sc, S n);
  cs_compliant_until := fun _ => sc_until sc;
  plugin_manager_run := fun slot _ _ n =>
    (if String.eqb slot "pre_auto_attach" then sc_pre sc else sc_post sc, S n);
  cert_updater_update := fun n => (sc_update sc, S n)
|}.

Definition consumer_on : dict := {[ "uuid" := PyStr "c0ffee"; "autoheal" := PyBool true ]}.
Definition consumer_off : dict := {[ "uuid" := PyStr "c0ffee"; "autoheal" := PyBool false ]}.
Definition consumer_unset : dict := {[ "uuid" := PyStr "c0ffee" ]}.

Definition ent1 : dict := {[ "pool" := PyStr "p1"; "quantity" := PyInt 1 ]}.

(** 2024-01-10T00:00:00Z, 2024-01-10T12:00:00Z and 2024-01-12T00:00:00Z. *)
Definition jan10 : datetime := 1704844800 * 1000000.
Definition jan10_noon : datetime := jan10 + 12 * 3600 * 1000000.
Definition jan12 : datetime := jan10 + timedelta_days 2.

(** Everything succeeds; coverage is invalid today. *)
Definition sc_heal_today : Script := {|
  sc_uuid := "c0ffee";
  sc_consumer := Returned consumer_on;
  sc_valid := Returned false;
  sc_until := None;
  sc_pre := Returned tt;
  sc_bind := Returned [ent1];
  sc_post := Returned tt;
  sc_update := Returned EntCertUpdateReport_new
|}.

Definition with_consumer (c : Res dict) (sc : Script) : Script :=
  {| sc_uuid := sc_uuid sc; sc_consumer := c; sc_valid := sc_valid sc;
     sc_until := sc_until sc; sc_pre := sc_pre sc; sc_bind := sc_bind sc;
     sc_post := sc_post sc; sc_update := sc_update sc |}.

Definition with_valid (v : Res bool) (u : option datetime) (sc : Script) : Script :=
  {| sc_uuid := sc_uuid sc; sc_consumer := sc_consumer sc; sc_valid := v;
     sc_until := u; sc_pre := sc_pre sc; sc_bind := sc_bind sc;
     sc_post := sc_post sc; sc_update := sc_update sc |}.

Definition with_pre (r : Res unit) (sc : Script) : Script :=
  {| sc_uuid := sc_uuid sc; sc_consumer := sc_consumer sc; sc_valid := sc_valid sc;
     sc_until := sc_until sc; sc_pre := r; sc_bind := sc_bind sc;
     sc_post := sc_post sc; sc_update := sc_update sc |}.

Definition with_bind (r : Res (list dict)) (sc : Script) : Script :=
  {| sc_uuid := sc_uuid sc; sc_consumer := sc_consumer sc; sc_valid := sc_valid sc;
     sc_until := sc_until sc; sc_pre := sc_pre sc; sc_bind := r;
     sc_post := sc_post sc; sc_update := sc_update sc |}.

Definition with_post (r : Res unit) (sc : Script) : Script :=
  {| sc_uuid := sc_uuid sc; sc_consumer := sc_consumer sc; sc_valid := sc_valid sc;
     sc_until := sc_until sc; sc_pre := sc_pre sc; sc_bind := sc_bind sc;
     sc_post := r; sc_update := sc_update sc |}.

(** The scenarios used below. *)
Definition sc_pre_fails : Script :=
  with_pre (Raised (HookError "pre_auto_attach plugin failed")) sc_heal_today.
Definition sc_heal_tomorrow : Script :=
  with_valid (Returned true) (Some jan10_noon) sc_heal_today.
Definition sc_tomorrow_pre_fails : Script :=
  with_pre (Raised (HookError "pre_auto_attach plugin failed")) sc_heal_tomorrow.
Definition sc_unset : Script := with_consumer (Returned consumer_unset) sc_heal_today.
Definition sc_off : Script := with_consumer (Returned consumer_off) sc_heal_today.
Definition sc_lookup_fails : Script :=
  with_consumer (Raised (ServiceError "503 Service Unavailable")) sc_heal_today.
Definition sc_bind_fails : Script :=
  with_bind (Raised (ServiceError "503 Service Unavailable")) sc_heal_today.
Definition sc_post_fails : Script :=
  with_post (Raised (HookError "post_auto_attach plugin failed")) sc_heal_today.
Definition sc_no_until : Script := with_valid (Returned true) None sc_heal_today.

Definition consumer_on_enabled : autoheal_on consumer_on :=
  ex_intro _ (PyBool true) (conj eq_refl eq_refl).

(** ** [perform] on an action that was used before

    [perform] is a method: nothing stops a caller from running it again on
    the same [HealingUpdateAction], whose [self.report] is then what the
    previous run left.  [perform_on] runs it with [self.report] equal to an
    arbitrary [r0]. *)

Definition perform_on {World} (C : Collaborators World) (now : datetime)
    (w : World) (r0 : EntCertUpdateReport) : Res PerformResult * State World :=
  perform C now (mkState w r0 [] []).

(** [r0] after [self.report._exceptions.append(e)]. *)
Definition report_with (r0 : EntCertUpdateReport) (e : Exception)
  : EntCertUpdateReport :=
  {| grants := grants r0; _exceptions := _exceptions r0 ++ [e] |}.

(** The report handed back once a remediation started on [r0] ended with [out]. *)
Definition report_after_on (r0 : EntCertUpdateReport)
    (out : Res EntCertUpdateReport) : EntCertUpdateReport :=
  match out with
  | Returned r => r
  | Raised e => report_with r0 e
  end.

(** The paths of [perform] started on [r0]. *)
Inductive PerformPath (r0 : EntCertUpdateReport) (uuid : string) (now : datetime)
  : Res PerformResult -> list Event -> list LogRecord -> Prop :=
| PP_lookup_raises e :
    PerformPath r0 uuid now (Raised e) [EvGetConsumer uuid (Raised e)] []
| PP_disabled c :
    autoheal_off c = true ->
    PerformPath r0 uuid now (Returned (RInt 0))
      [EvGetConsumer uuid (Returned c)]
      [LogMsg WARNING [Lit "Auto-heal disabled on server, skipping."]]
| PP_validity_raises c e :
    autoheal_off c = false ->
    PerformPath r0 uuid now (Returned (RReport (report_with r0 e)))
      [EvGetConsumer uuid (Returned c); EvIsValid (Raised e)]
      (closing_log checked (@Raised unit e))
| PP_today c evs out :
    autoheal_off c = false ->
    Heal uuid now evs out ->
    PerformPath r0 uuid now (Returned (RReport (report_after_on r0 out)))
      (EvGetConsumer uuid (Returned c) :: EvIsValid (Returned false) :: evs)
      (LogMsg WARNING [Lit "Found invalid entitlements for today: "; Arg now]
         :: closing_log checked out)
| PP_no_until c :
    autoheal_off c = false ->
    PerformPath r0 uuid now (Returned (RReport r0))
      [EvGetConsumer uuid (Returned c); EvIsValid (Returned true);
       EvCompliantUntil None]
      (LogMsg WARNING [Lit "Got valid status from server but no valid until date."]
         :: closing_log (checked ++ [Lit " are valid today "; Arg now]) (Returned tt))
| PP_covered c until :
    autoheal_off c = false ->
    now + timedelta_days 1 <= until ->
    PerformPath r0 uuid now (Returned (RReport r0))
      [EvGetConsumer uuid (Returned c); EvIsValid (Returned true);
       EvCompliantUntil (Some until)]
      (closing_log (checked ++ [Lit " are valid today "; Arg now]
                            ++ [Lit " and tomorrow "; Arg (now + timedelta_days 1)])
                   (Returned tt))
| PP_tomorrow c until evs out :
    autoheal_off c = false ->
    now + timedelta_days 1 > until ->
    Heal uuid (now + timedelta_days 1) evs out ->
    PerformPath r0 uuid now (Returned (RReport (report_after_on r0 out)))
      (EvGetConsumer uuid (Returned c) :: EvIsValid (Returned true)
         :: EvCompliantUntil (Some until) :: evs)
      (LogMsg WARNING [Lit "Entitlements will be invalid by tomorrow: ";
                       Arg (now + timedelta_days 1)]
         :: closing_log (checked ++ [Lit " are valid today "; Arg now]) out).

(** A report left by an earlier run, holding one error. *)
Definition used_report : EntCertUpdateReport :=
  {| grants := [ent1]; _exceptions := [ServiceError "410 Gone"] |}.

(** The refresh step fails although the bind and both hooks succeed. *)
Definition sc_update_fails : Script :=
  {| sc_uuid := sc_uuid sc_heal_today; sc_consumer := sc_consumer sc_heal_today;
     sc_valid := sc_valid sc_heal_today; sc_until := sc_until sc_heal_today;
     sc_pre := sc_pre sc_heal_today; sc_bind := sc_bind sc_heal_today;
     sc_post := sc_post sc_heal_today;
     sc_update := Raised (RuntimeError "certificate directory not writable") |}.

(** Coverage reaches past tomorrow. *)
Definition sc_covered : Script := with_valid (Returned true) (Some jan12) sc_heal_today.

(** ** Proof automation *)

(** Run one remediation symbolically, call by call. *)
Ltac heal_steps C :=
  unfold run, bind, update, invoke; simpl;
  destruct (plugin_manager_run C "pre_auto_attach" _ None _) as [[[]|e] ?]; simpl;
  [ destruct (uep_bind C _ _ _) as [[ents|e] ?]; simpl;
    [ destruct (plugin_manager_run C "post_auto_attach" _ _ _) as [[[]|e] ?]; simpl;
      [ destruct (cert_updater_update C _) as [[r|e] ?]; simpl | ] | ] | ].

(** Discharge hypotheses that place an event in a list it is not in. *)
Ltac absurd_in :=
  repeat match goal with
  | H : _ \/ _ |- _ => destruct H
  | H : False |- _ => destruct H
  | H : _ = _ |- _ => discriminate H
  end.

Ltac heals :=
  match goal with
  | H : Heal _ _ _ _ |- _ => inversion H; subst; clear H; simpl in *
  end.

Ltac crush :=
  repeat match goal with
  | |- _ /\ _ => split
  | |- forall _, _ => intro
  | |- ~ _ => intro
  end; simpl in *; absurd_in; simplify_eq; try done; try lia.

(** Find the split of a concrete list that [precedes] asks for. *)
Ltac prec :=
  unfold precedes;
  first [ by eexists [], [], _
        | by eexists [_], [], _
        | by eexists [_; _], [], _
        | by eexists [_; _; _], [], _
        | by eexists [_; _; _; _], [], _
        | by eexists [_; _; _], [_], _
        | by eexists [_; _; _; _], [_], _ ].

(** Case analysis on the path a cycle took; [lem] is the path lemma at the cycle. *)
Ltac paths lem :=
  let HP := fresh "HP" in
  pose proof lem as HP;
  match type of HP with
  | Path _ _ (fst ?cy) _ _ =>
      destruct cy as [?res [? ? ?tr ?lg]];
      simpl in *;
      inversion HP; subst; clear HP; simpl in *
  end.

(** Evaluate a scripted cycle. *)
Ltac here := first [ exact consumer_on_enabled | vm_compute; auto 12 ].

(** Case analysis on the path a run of [perform_on] took. *)
Ltac perform_paths lem :=
  let HP := fresh "HP" in
  pose proof lem as HP;
  match type of HP with
  | PerformPath _ _ _ (fst ?p) _ _ =>
      destruct p as [?res [? ? ?tr ?lg]];
      simpl in *;
      inversion HP; subst; clear HP; simpl in *
  end.

(** As [prec], for events further down the list. *)
Ltac prec_far :=
  unfold precedes;
  first [ prec
        | by eexists [_; _; _; _; _], [], _
        | by eexists [_; _; _; _; _; _], [], _ ].

(** ** Sanity checks of the embedding on the spec's concrete scenarios *)

Example heal_today_calls :
  calls (snd (cycle (scripted sc_heal_today) jan10 0%nat)) =
  [ EvGetConsumer "c0ffee" (Returned consumer_on);
    EvIsValid (Returned false);
    EvRun "pre_auto_attach" "c0ffee" None (Returned tt);
    EvBind "c0ffee" jan10 (Returned [ent1]);
    EvRun "post_auto_attach" "c0ffee" (Some [ent1]) (Returned tt);
    EvUpdate (Returned EntCertUpdateReport_new) ].
Proof. reflexivity. Qed.

Example heal_tomorrow_binds :
  bind_instants
    (calls (snd (cycle (scripted (with_valid (Returned true) (Some jan10_noon) sc_heal_today))
                       jan10 0%nat))) =
  [jan10 + timedelta_days 1].
Proof. reflexivity. Qed.

Example covered_no_bind :
  let c := cycle (scripted (with_valid (Returned true) (Some jan12) sc_heal_today)) jan10 0%nat in
  bind_instants (calls (snd c)) = [] /\
  fst c = Returned (RReport EntCertUpdateReport_new) /\
  log (snd c) =
    [ LogMsg DEBUG [ Lit "Entitlement auto healing was checked and entitlements";
                     Lit " are valid today "; Arg jan10;
                     Lit " and tomorrow "; Arg (jan10 + timedelta_days 1) ];
      LogMsg DEBUG [ Lit "Auto-heal check complete." ] ].
Proof. repeat split; reflexivity. Qed.

(** ** Basic facts *)

Lemma timedelta_day_pos : 0 < timedelta_days 1.
Proof. unfold timedelta_days. lia. Qed.

Lemma autoheal_on_off c : autoheal_on c -> autoheal_off c = false.
Proof. intros (v & Hv & Ht). unfold autoheal_off. by rewrite Hv, Ht. Qed.

Lemma autoheal_absent_off c : autoheal_false_or_absent c -> autoheal_off c = true.
Proof.
  unfold autoheal_off. intros [Hn | (v & Hv & Ht)].
  - by rewrite Hn.
  - by rewrite Hv, Ht.
Qed.

(** ** Every cycle follows a path *)

Section Paths.
Context {World : Type} (C : Collaborators World).

Lemma cycle_path now w :
  Path (identity_uuid C) now
    (fst (cycle C now w)) (calls (snd (cycle C now w))) (log (snd (cycle C now w))).
Proof.
  unfold cycle, _do_update, perform, HealingUpdateAction_init.
  unfold mbind, M_bind, mret, M_ret, try_except_else, set_report, getConsumer, invoke.
  simpl.
  destruct (uep_getConsumer C (identity_uuid C) w) as [[c|e] w1] eqn:Hgc; simpl.
  2: constructor.
  destruct (autoheal_off c) eqn:Hoff; simpl.
  { by constructor. }
  unfold is_valid, invoke; simpl.
  destruct (cs_is_valid C w1) as [[[|]|e] w2] eqn:Hv; simpl.
  3: by constructor.
  - (* valid today *)
    unfold compliant_until; simpl.
    destruct (cs_compliant_until C w2) as [until|] eqn:Hcu; simpl.
    2: by apply Path_no_until.
    destruct (now + timedelta_days 1 >? until) eqn:Hgt; simpl.
    2: { apply Path_covered; [done|]. rewrite Z.gtb_ltb in Hgt. lia. }
    assert (now + timedelta_days 1 > until) as Hgt' by (rewrite Z.gtb_ltb in Hgt; lia).
    heal_steps C.
    + by apply (Path_tomorrow _ _ c until _ (Returned r)); [| |constructor].
    + by apply (Path_tomorrow _ _ c until _ (Raised e)); [| |constructor].
    + by apply (Path_tomorrow _ _ c until _ (Raised e)); [| |constructor].
    + by apply (Path_tomorrow _ _ c until _ (Raised e)); [| |constructor].
    + by apply (Path_tomorrow _ _ c until _ (Raised e)); [| |constructor].
  - (* invalid today *)
    heal_steps C.
    + by apply (Path_today _ _ c _ (Returned r)); [|constructor].
    + by apply (Path_today _ _ c _ (Raised e)); [|constructor].
    + by apply (Path_today _ _ c _ (Raised e)); [|constructor].
    + by apply (Path_today _ _ c _ (Raised e)); [|constructor].
    + by apply (Path_today _ _ c _ (Raised e)); [|constructor].
Qed.
End Paths.


(** [self.report] at the end of a cycle is the report handed back, and the
    fresh report when no report is handed back. *)
Lemma cycle_self_report {World} (C : Collaborators World) (now : datetime) (w : World) :
  self_report (snd (cycle C now w)) =
  match fst (cycle C now w) with
  | Returned (RReport r) => r
  | _ => EntCertUpdateReport_new
  end.
Proof.
  unfold cycle, _do_update, perform, HealingUpdateAction_init.
  unfold mbind, M_bind, mret, M_ret, try_except_else, set_report, getConsumer, invoke.
  simpl.
  destruct (uep_getConsumer C (identity_uuid C) w) as [[c|e] w1]; simpl; [|done].
  destruct (autoheal_off c); simpl; [done|].
  unfold is_valid, invoke; simpl.
  destruct (cs_is_valid C w1) as [[[|]|e] w2]; simpl; [| |done].
  - unfold compliant_until; simpl.
    destruct (cs_compliant_until C w2) as [until|]; simpl; [|done].
    destruct (now + timedelta_days 1 >? until); simpl; [|done].
    heal_steps C; done.
  - heal_steps C; done.
Qed.

(** ** The claims *)

(** C1, as stated, fails.  The claim promises exactly one bind call at
    [now], with the pre hook before it and the post hook after it, in every
    cycle where auto-heal is on and coverage is invalid today.  When the
    pre_auto_attach hook raises (line 105), the [except] clause takes over:
    no bind call is issued and the post hook is never dispatched. *)
Lemma C1_counterexample :
  let C := scripted sc_pre_fails in
  let uuid := identity_uuid C in
  let tr := calls (snd (cycle C jan10 0%nat)) in
  ~ (In (EvGetConsumer uuid (Returned consumer_on)) tr ->
     autoheal_on consumer_on ->
     In (EvIsValid (Returned false)) tr ->
     bind_instants tr = [jan10] /\
     (exists ents rpre rpost,
        precedes (EvRun "pre_auto_attach" uuid None rpre)
                 (EvBind uuid jan10 (Returned ents)) tr /\
        precedes (EvBind uuid jan10 (Returned ents))
                 (EvRun "post_auto_attach" uuid (Some ents) rpost) tr) /\
     (forall d, ~ In (EvCompliantUntil d) tr) /\
     ~ In (jan10 + timedelta_days 1) (bind_instants tr)).
Proof.
  cbv zeta. intros H.
  specialize (H ltac:(here) ltac:(here) ltac:(here)).
  destruct H as [Hb _]. discriminate Hb.
Qed.

(** C1 (amended).  In every cycle where auto-heal is on and [cs.is_valid()]
    returned False: the pre_auto_attach hook is dispatched; if it raises, no
    bind call is issued; if it returns, exactly one bind call is issued, with
    instant [now], after the hook; if that bind returns grants, the
    post_auto_attach hook is dispatched after it with those grants.  The
    tomorrow check is never evaluated: [cs.compliant_until] is not read and
    no bind is issued for [now + 24h]. *)
Theorem C1_heal_today {World} (C : Collaborators World) (now : datetime) (w : World)
    (c : dict) :
  let uuid := identity_uuid C in
  let tr := calls (snd (cycle C now w)) in
  In (EvGetConsumer uuid (Returned c)) tr ->
  autoheal_on c ->
  In (EvIsValid (Returned false)) tr ->
  remediation_at uuid now tr /\
  (forall d, ~ In (EvCompliantUntil d) tr) /\
  ~ In (now + timedelta_days 1) (bind_instants tr).
Proof.
  pose proof timedelta_day_pos.
  intros uuid tr; subst uuid tr. intros Hc Hon Hv.
  paths (cycle_path C now w); absurd_in; heals.
  all: unfold remediation_at; crush; eauto 12.
  all: eexists; prec.
Qed.

(** C1 (amended) at the scenario where everything succeeds. *)
Lemma C1_witness :
  let C := scripted sc_heal_today in
  let tr := calls (snd (cycle C jan10 0%nat)) in
  remediation_at "c0ffee" jan10 tr /\
  (forall d, ~ In (EvCompliantUntil d) tr) /\
  ~ In (jan10 + timedelta_days 1) (bind_instants tr).
Proof.
  apply (C1_heal_today (scripted sc_heal_today) jan10 0%nat consumer_on); here.
Defined.

(** C2.  In every cycle at most one bind call is issued.  When the today
    check fires ([cs.is_valid()] returned False), the tomorrow check is
    skipped altogether: [cs.compliant_until] is not read and no bind is
    issued for [now + 24h].  A cycle that binds at [now] does not bind at
    [now + 24h]. *)
Theorem C2_at_most_one_bind {World} (C : Collaborators World) (now : datetime) (w : World) :
  let tr := calls (snd (cycle C now w)) in
  let tomorrow := now + timedelta_days 1 in
  (length (bind_instants tr) <= 1)%nat /\
  (In (EvIsValid (Returned false)) tr ->
     (forall d, ~ In (EvCompliantUntil d) tr) /\ ~ In tomorrow (bind_instants tr)) /\
  (In now (bind_instants tr) -> ~ In tomorrow (bind_instants tr)).
Proof.
  pose proof timedelta_day_pos.
  intros tr tomorrow; subst tr tomorrow.
  paths (cycle_path C now w); try heals.
  all: repeat split; try lia; intros; try intros ?; absurd_in.
  all: try lia.
Qed.

(** C3, as stated, fails.  With coverage valid today and lapsing before
    [now + 24h], the claim promises exactly one bind call at [now + 24h].
    When the pre_auto_attach hook raises (line 123), no bind call is
    issued. *)
Lemma C3_counterexample :
  let C := scripted sc_tomorrow_pre_fails in
  let uuid := identity_uuid C in
  let tr := calls (snd (cycle C jan10 0%nat)) in
  let tomorrow := jan10 + timedelta_days 1 in
  ~ (In (EvGetConsumer uuid (Returned consumer_on)) tr ->
     autoheal_on consumer_on ->
     In (EvIsValid (Returned true)) tr ->
     In (EvCompliantUntil (Some jan10_noon)) tr ->
     (tomorrow > jan10_noon ->
        bind_instants tr = [tomorrow] /\
        exists ents rpre rpost,
          precedes (EvRun "pre_auto_attach" uuid None rpre)
                   (EvBind uuid tomorrow (Returned ents)) tr /\
          precedes (EvBind uuid tomorrow (Returned ents))
                   (EvRun "post_auto_attach" uuid (Some ents) rpost) tr) /\
     (tomorrow <= jan10_noon -> bind_instants tr = [] /\ hook_slots tr = [])).
Proof.
  cbv zeta. intros H.
  specialize (H ltac:(here) ltac:(here) ltac:(here) ltac:(here)).
  destruct H as [H _].
  destruct H as [Hb _]; [reflexivity|]. discriminate Hb.
Qed.

(** C3 (amended).  In every cycle where auto-heal is on, [cs.is_valid()]
    returned True and [cs.compliant_until] is some [until]: if
    [now + 24h > until], the pre_auto_attach hook is dispatched; if it raises
    no bind call is issued; if it returns, exactly one bind call is issued,
    with instant [now + 24h], after the hook; if that bind returns grants the
    post_auto_attach hook is dispatched after it with those grants.  If
    [now + 24h <= until], no bind call is issued and no hook is dispatched. *)
Theorem C3_heal_tomorrow {World} (C : Collaborators World) (now : datetime) (w : World)
    (c : dict) (until : datetime) :
  let uuid := identity_uuid C in
  let tr := calls (snd (cycle C now w)) in
  let tomorrow := now + timedelta_days 1 in
  In (EvGetConsumer uuid (Returned c)) tr ->
  autoheal_on c ->
  In (EvIsValid (Returned true)) tr ->
  In (EvCompliantUntil (Some until)) tr ->
  (tomorrow > until -> remediation_at uuid tomorrow tr) /\
  (tomorrow <= until -> bind_instants tr = [] /\ hook_slots tr = []).
Proof.
  intros uuid tr tomorrow; subst uuid tr tomorrow. intros Hc Hon Hv Hcu.
  paths (cycle_path C now w); absurd_in; simplify_eq; try heals.
  all: unfold remediation_at; crush; eauto 12.
  all: eexists; prec.
Qed.

(** C3 (amended) at the scenario of coverage lapsing at noon today. *)
Lemma C3_witness :
  let C := scripted sc_heal_tomorrow in
  let tr := calls (snd (cycle C jan10 0%nat)) in
  let tomorrow := jan10 + timedelta_days 1 in
  (tomorrow > jan10_noon -> remediation_at "c0ffee" tomorrow tr) /\
  (tomorrow <= jan10_noon -> bind_instants tr = [] /\ hook_slots tr = []).
Proof.
  apply (C3_heal_tomorrow (scripted sc_heal_tomorrow) jan10 0%nat consumer_on jan10_noon);
    here.
Defined.

(** C4 fails on the code.  When the account record has no autoheal key,
    [perform] hands back the integer [0] (line 87), not a report: the skip
    path departs from the class docstring, which has [perform] return an
    EntCertUpdateReport, and from the two other return statements (lines
    141 and 144), which return [self.report]. *)
Lemma C4_counterexample :
  let C := scripted sc_unset in
  let uuid := identity_uuid C in
  let cy := cycle C jan10 0%nat in
  let tr := calls (snd cy) in
  ~ (In (EvGetConsumer uuid (Returned consumer_unset)) tr ->
     autoheal_false_or_absent consumer_unset ->
     bind_instants tr = [] /\ hook_slots tr = [] /\
     exists r, fst cy = Returned (RReport r) /\ grants r = [] /\ _exceptions r = []).
Proof.
  cbv zeta. intros H.
  specialize (H ltac:(here) ltac:(left; reflexivity)).
  destruct H as (_ & _ & r & Hr & _). discriminate Hr.
Qed.

(** C4, what the code does.  In every cycle where the account's auto-heal
    flag is false or absent, the account lookup is the only collaborator
    call (no bind call, no hook), as the claim says; but [perform] hands
    back the integer [0] of line 87 in place of the report the claim and the
    class docstring call for, while [self.report], the empty report that
    was to be returned, stays fresh, with no grants and no errors. *)
Theorem C4_disabled_skip {World} (C : Collaborators World) (now : datetime) (w : World)
    (c : dict) :
  let uuid := identity_uuid C in
  let cy := cycle C now w in
  let tr := calls (snd cy) in
  In (EvGetConsumer uuid (Returned c)) tr ->
  autoheal_false_or_absent c ->
  bind_instants tr = [] /\ hook_slots tr = [] /\
  tr = [EvGetConsumer uuid (Returned c)] /\
  fst cy = Returned (RInt 0) /\
  self_report (snd cy) = EntCertUpdateReport_new.
Proof.
  intros uuid cy tr; subst uuid cy tr. intros Hc Hoff%autoheal_absent_off.
  rewrite cycle_self_report.
  paths (cycle_path C now w); absurd_in; simplify_eq; try congruence.
  all: try heals; absurd_in.
  done.
Qed.

(** The skip path at an account whose autoheal flag is False. *)
Lemma C4_witness :
  let C := scripted sc_off in
  let cy := cycle C jan10 0%nat in
  let tr := calls (snd cy) in
  bind_instants tr = [] /\ hook_slots tr = [] /\
  tr = [EvGetConsumer "c0ffee" (Returned consumer_off)] /\
  fst cy = Returned (RInt 0) /\
  self_report (snd cy) = EntCertUpdateReport_new.
Proof.
  apply (C4_disabled_skip (scripted sc_off) jan10 0%nat consumer_off).
  - here.
  - right. exists (PyBool false). split; reflexivity.
Defined.

(** C5, as stated, fails.  The account lookup (line 83) sits before the
    [try] statement: an exception it raises is not put in any report, it
    reaches the caller of [perform]. *)
Lemma C5_counterexample :
  let C := scripted sc_lookup_fails in
  let cy := cycle C jan10 0%nat in
  let tr := calls (snd cy) in
  ~ (forall ev e, In ev tr -> raised_by ev = Some e ->
       (exists l, tr = l ++ [ev]) /\
       exists r, fst cy = Returned (RReport r) /\ In e (_exceptions r)).
Proof.
  cbv zeta. intros H.
  destruct (H (EvGetConsumer "c0ffee" (Raised (ServiceError "503 Service Unavailable")))
              (ServiceError "503 Service Unavailable")
              ltac:(here) eq_refl) as (_ & r & Hr & _).
  discriminate Hr.
Qed.

(** C5 (amended).  In every cycle, a collaborator call that raises is the
    last call of the cycle.  If it is the validity check, a hook dispatch, the
    bind call or the certificate refresh, [perform] returns the report that
    holds this exception as its only error and no grants.  If it is the
    account lookup, the exception reaches the caller of [perform]; and
    [perform] raises in no other case. *)
Theorem C5_exception_handling {World} (C : Collaborators World) (now : datetime) (w : World) :
  let uuid := identity_uuid C in
  let cy := cycle C now w in
  let tr := calls (snd cy) in
  (forall ev e, In ev tr -> raised_by ev = Some e ->
     (exists l, tr = l ++ [ev]) /\
     if is_account_lookup ev then fst cy = Raised e
     else fst cy = Returned (RReport {| grants := []; _exceptions := [e] |})) /\
  (forall e, fst cy = Raised e -> tr = [EvGetConsumer uuid (Raised e)]).
Proof.
  intros uuid cy tr; subst uuid cy tr.
  paths (cycle_path C now w); try heals.
  all: split; [intros ev e0 Hin Hr | intros e0 He; by simplify_eq].
  all: absurd_in; subst ev; simpl in *; simplify_eq.
  all: split; [|done].
  all: first [ by eexists [] | by eexists [_] | by eexists [_; _] | by eexists [_; _; _]
             | by eexists [_; _; _; _] | by eexists [_; _; _; _; _]
             | by eexists [_; _; _; _; _; _] ].
Qed.

(** C5 (amended) at a bind call that raises. *)
Lemma C5_witness :
  let C := scripted sc_bind_fails in
  let cy := cycle C jan10 0%nat in
  (exists l, calls (snd cy) =
             l ++ [EvBind "c0ffee" jan10 (Raised (ServiceError "503 Service Unavailable"))]) /\
  fst cy = Returned (RReport {| grants := [];
                                _exceptions := [ServiceError "503 Service Unavailable"] |}).
Proof.
  apply (proj1 (C5_exception_handling (scripted sc_bind_fails) jan10 0%nat)
           (EvBind "c0ffee" jan10 (Raised (ServiceError "503 Service Unavailable")))
           (ServiceError "503 Service Unavailable")).
  - here.
  - reflexivity.
Defined.

(** C6.  In every cycle where auto-heal is on, [cs.is_valid()] returned
    False, the pre_auto_attach hook returned and the bind call raised a
    ServiceError, [perform] returns a report whose errors contain that
    ServiceError and whose grants are empty. *)
Theorem C6_bind_service_error {World} (C : Collaborators World) (now : datetime) (w : World)
    (c : dict) (msg : string) :
  let uuid := identity_uuid C in
  let cy := cycle C now w in
  let tr := calls (snd cy) in
  In (EvGetConsumer uuid (Returned c)) tr ->
  autoheal_on c ->
  In (EvIsValid (Returned false)) tr ->
  In (EvRun "pre_auto_attach" uuid None (Returned tt)) tr ->
  In (EvBind uuid now (Raised (ServiceError msg))) tr ->
  exists r, fst cy = Returned (RReport r) /\
            In (ServiceError msg) (_exceptions r) /\ grants r = [].
Proof.
  intros uuid cy tr; subst uuid cy tr. intros Hc Hon Hv Hpre Hb.
  paths (cycle_path C now w); absurd_in; heals; absurd_in; simplify_eq.
  eexists; repeat split; simpl; auto.
Qed.

(** C6 at a bind call answered by a 503. *)
Lemma C6_witness :
  exists r,
    fst (cycle (scripted sc_bind_fails) jan10 0%nat) = Returned (RReport r) /\
    In (ServiceError "503 Service Unavailable") (_exceptions r) /\ grants r = [].
Proof.
  apply (C6_bind_service_error (scripted sc_bind_fails) jan10 0%nat consumer_on
           "503 Service Unavailable"); here.
Defined.

(** C7, as stated, fails.  Between the bind call and
    [cert_updater.update()] stands the post_auto_attach hook (lines 107 and
    125).  When the bind returns and that hook raises, [update] is not
    called. *)
Lemma C7_counterexample :
  let C := scripted sc_post_fails in
  let tr := calls (snd (cycle C jan10 0%nat)) in
  ~ (forall u d ents, In (EvBind u d (Returned ents)) tr ->
       exists r, precedes (EvBind u d (Returned ents)) (EvUpdate r) tr).
Proof.
  cbv zeta. intros H.
  destruct (H "c0ffee" jan10 [ent1] ltac:(here)) as (r & l1 & l2 & l3 & Htr).
  assert (Hu : update_calls (calls (snd (cycle (scripted sc_post_fails) jan10 0%nat))) = [])
    by reflexivity.
  rewrite Htr in Hu. clear Htr.
  assert (Hin : In r (update_calls
                        (l1 ++ EvBind "c0ffee" jan10 (Returned [ent1])
                            :: l2 ++ EvUpdate r :: l3))).
  { clear Hu. induction l1 as [|[] l1 IH]; simpl; auto.
    induction l2 as [|[] l2 IH]; simpl; auto. }
  rewrite Hu in Hin. destruct Hin.
Qed.

(** C7 (amended).  In every cycle where a bind call returned grants:
    if the post_auto_attach hook dispatched with those grants returned,
    [cert_updater.update()] is called after the bind; if that hook raised,
    [cert_updater.update()] is not called in the cycle. *)
Theorem C7_refresh_after_bind {World} (C : Collaborators World) (now : datetime) (w : World)
    (u : string) (d : datetime) (ents : list dict) :
  let tr := calls (snd (cycle C now w)) in
  In (EvBind u d (Returned ents)) tr ->
  (In (EvRun "post_auto_attach" u (Some ents) (Returned tt)) tr ->
     exists r, precedes (EvBind u d (Returned ents)) (EvUpdate r) tr) /\
  (forall e, In (EvRun "post_auto_attach" u (Some ents) (Raised e)) tr ->
     update_calls tr = []).
Proof.
  intros tr; subst tr. intros Hb.
  paths (cycle_path C now w); absurd_in; heals; absurd_in; simplify_eq.
  all: crush.
  all: eexists; prec.
Qed.

(** C7 (amended) at the scenario where everything succeeds. *)
Lemma C7_witness :
  let tr := calls (snd (cycle (scripted sc_heal_today) jan10 0%nat)) in
  (In (EvRun "post_auto_attach" "c0ffee" (Some [ent1]) (Returned tt)) tr ->
     exists r, precedes (EvBind "c0ffee" jan10 (Returned [ent1])) (EvUpdate r) tr) /\
  (forall e, In (EvRun "post_auto_attach" "c0ffee" (Some [ent1]) (Raised e)) tr ->
     update_calls tr = []).
Proof.
  apply (C7_refresh_after_bind (scripted sc_heal_today) jan10 0%nat "c0ffee" jan10 [ent1]).
  here.
Defined.

(** C8.  In every cycle where auto-heal is on, [cs.is_valid()] returned
    True and [cs.compliant_until] is None: no bind call is issued, no hook
    is dispatched, the report returned has no error, the warning of line 120
    is logged and nothing is logged at the error level. *)
Theorem C8_valid_without_until {World} (C : Collaborators World) (now : datetime) (w : World)
    (c : dict) :
  let uuid := identity_uuid C in
  let cy := cycle C now w in
  let tr := calls (snd cy) in
  In (EvGetConsumer uuid (Returned c)) tr ->
  autoheal_on c ->
  In (EvIsValid (Returned true)) tr ->
  In (EvCompliantUntil None) tr ->
  bind_instants tr = [] /\ hook_slots tr = [] /\
  (exists r, fst cy = Returned (RReport r) /\ _exceptions r = []) /\
  In (LogMsg WARNING [Lit "Got valid status from server but no valid until date."])
     (log (snd cy)) /\
  (forall rec, In rec (log (snd cy)) -> has_level ERROR rec = false).
Proof.
  intros uuid cy tr; subst uuid cy tr. intros Hc Hon Hv Hcu.
  paths (cycle_path C now w); absurd_in; simplify_eq; try (heals; absurd_in).
  crush; eauto.
  all: by subst.
Qed.

(** C8 at coverage valid today with no expiry known. *)
Lemma C8_witness :
  let cy := cycle (scripted sc_no_until) jan10 0%nat in
  let tr := calls (snd cy) in
  bind_instants tr = [] /\ hook_slots tr = [] /\
  (exists r, fst cy = Returned (RReport r) /\ _exceptions r = []) /\
  In (LogMsg WARNING [Lit "Got valid status from server but no valid until date."])
     (log (snd cy)) /\
  (forall rec, In rec (log (snd cy)) -> has_level ERROR rec = false).
Proof.
  apply (C8_valid_without_until (scripted sc_no_until) jan10 0%nat consumer_on); here.
Defined.

(** C9, as stated, fails.  The report [perform] returns is the one
    [cert_updater.update()] returned (lines 112 and 126); the grants of the
    bind call go to the post hook only.  Here the bind returns one grant
    and the refresh returns a report without grants. *)
Lemma C9_counterexample :
  let C := scripted sc_heal_today in
  let uuid := identity_uuid C in
  let cy := cycle C jan10 0%nat in
  let tr := calls (snd cy) in
  ~ (In (EvGetConsumer uuid (Returned consumer_on)) tr ->
     autoheal_on consumer_on ->
     In (EvIsValid (Returned false)) tr ->
     In (EvRun "pre_auto_attach" uuid None (Returned tt)) tr ->
     In (EvBind uuid jan10 (Returned [ent1])) tr ->
     In (EvRun "post_auto_attach" uuid (Some [ent1]) (Returned tt)) tr ->
     exists r, fst cy = Returned (RReport r) /\ grants r = [ent1] /\ _exceptions r = []).
Proof.
  cbv zeta. intros H.
  specialize (H ltac:(here) ltac:(here) ltac:(here) ltac:(here) ltac:(here) ltac:(here)).
  destruct H as (r & Hr & Hg & _).
  vm_compute in Hr. injection Hr as <-. discriminate Hg.
Qed.

(** C9 (amended).  In every cycle where auto-heal is on, [cs.is_valid()]
    returned False, and the pre hook, the bind call and the post hook all
    returned: [cert_updater.update()] is called once, and the report
    [perform] returns is the report that call returned, as it is; if that
    call raised, it is the fresh report with the exception as its only
    error. *)
Theorem C9_report_is_refresh_report {World} (C : Collaborators World) (now : datetime)
    (w : World) (c : dict) (ents : list dict) :
  let uuid := identity_uuid C in
  let cy := cycle C now w in
  let tr := calls (snd cy) in
  In (EvGetConsumer uuid (Returned c)) tr ->
  autoheal_on c ->
  In (EvIsValid (Returned false)) tr ->
  In (EvRun "pre_auto_attach" uuid None (Returned tt)) tr ->
  In (EvBind uuid now (Returned ents)) tr ->
  In (EvRun "post_auto_attach" uuid (Some ents) (Returned tt)) tr ->
  exists out, update_calls tr = [out] /\
    fst cy = Returned (RReport
      match out with
      | Returned r => r
      | Raised e => {| grants := []; _exceptions := [e] |}
      end).
Proof.
  intros uuid cy tr; subst uuid cy tr. intros Hc Hon Hv Hpre Hb Hpost.
  paths (cycle_path C now w); absurd_in; heals; absurd_in; simplify_eq.
  all: by eexists.
Qed.

(** C9 (amended) at the scenario where everything succeeds. *)
Lemma C9_witness :
  let cy := cycle (scripted sc_heal_today) jan10 0%nat in
  exists out, update_calls (calls (snd cy)) = [out] /\
    fst cy = Returned (RReport
      match out with
      | Returned r => r
      | Raised e => {| grants := []; _exceptions := [e] |}
      end).
Proof.
  apply (C9_report_is_refresh_report (scripted sc_heal_today) jan10 0%nat consumer_on [ent1]);
    here.
Defined.

(** C10.  In every cycle where the pre_auto_attach hook was dispatched
    (so a remediation branch was taken) and raised: no bind call is issued,
    [cert_updater.update()] is not called, and [perform] returns a report
    whose errors contain that exception and whose grants are empty. *)
Theorem C10_pre_hook_raises {World} (C : Collaborators World) (now : datetime) (w : World)
    (e : Exception) :
  let uuid := identity_uuid C in
  let cy := cycle C now w in
  let tr := calls (snd cy) in
  In (EvRun "pre_auto_attach" uuid None (Raised e)) tr ->
  bind_instants tr = [] /\ update_calls tr = [] /\
  exists r, fst cy = Returned (RReport r) /\ In e (_exceptions r) /\ grants r = [].
Proof.
  intros uuid cy tr; subst uuid cy tr. intros Hpre.
  paths (cycle_path C now w); absurd_in; heals; absurd_in; simplify_eq.
  all: repeat split; try done.
  all: eexists; repeat split; simpl; auto.
Qed.

(** C10 at a pre hook that raises. *)
Lemma C10_witness :
  let cy := cycle (scripted sc_pre_fails) jan10 0%nat in
  let tr := calls (snd cy) in
  bind_instants tr = [] /\ update_calls tr = [] /\
  exists r, fst cy = Returned (RReport r) /\
            In (HookError "pre_auto_attach plugin failed") (_exceptions r) /\
            grants r = [].
Proof.
  apply (C10_pre_hook_raises (scripted sc_pre_fails) jan10 0%nat
           (HookError "pre_auto_attach plugin failed")).
  here.
Defined.

(** ** [perform] on a used action follows a path too *)

Lemma perform_path {World} (C : Collaborators World) (now : datetime) (w : World)
    (r0 : EntCertUpdateReport) :
  PerformPath r0 (identity_uuid C) now
    (fst (perform_on C now w r0))
    (calls (snd (perform_on C now w r0)))
    (log (snd (perform_on C now w r0))).
Proof.
  unfold perform_on, perform.
  unfold mbind, M_bind, mret, M_ret, try_except_else, getConsumer, invoke.
  simpl.
  destruct (uep_getConsumer C (identity_uuid C) w) as [[c|e] w1]; simpl.
  2: constructor.
  destruct (autoheal_off c) eqn:Hoff; simpl.
  { by constructor. }
  unfold is_valid, invoke; simpl.
  destruct (cs_is_valid C w1) as [[[|]|e] w2]; simpl.
  3: by constructor.
  - unfold compliant_until; simpl.
    destruct (cs_compliant_until C w2) as [until|]; simpl.
    2: by apply PP_no_until.
    destruct (now + timedelta_days 1 >? until) eqn:Hgt; simpl.
    2: { apply PP_covered; [done|]. rewrite Z.gtb_ltb in Hgt. lia. }
    assert (now + timedelta_days 1 > until) as Hgt' by (rewrite Z.gtb_ltb in Hgt; lia).
    heal_steps C.
    + by apply (PP_tomorrow _ _ _ c until _ (Returned r)); [| |constructor].
    + by apply (PP_tomorrow _ _ _ c until _ (Raised e)); [| |constructor].
    + by apply (PP_tomorrow _ _ _ c until _ (Raised e)); [| |constructor].
    + by apply (PP_tomorrow _ _ _ c until _ (Raised e)); [| |constructor].
    + by apply (PP_tomorrow _ _ _ c until _ (Raised e)); [| |constructor].
  - heal_steps C.
    + by apply (PP_today _ _ _ c _ (Returned r)); [|constructor].
    + by apply (PP_today _ _ _ c _ (Raised e)); [|constructor].
    + by apply (PP_today _ _ _ c _ (Raised e)); [|constructor].
    + by apply (PP_today _ _ _ c _ (Raised e)); [|constructor].
    + by apply (PP_today _ _ _ c _ (Raised e)); [|constructor].
Qed.

Lemma autoheal_off_false c : autoheal_off c = false -> autoheal_on c.
Proof.
  unfold autoheal_off, autoheal_on. destruct (c !! "autoheal") as [v|]; [|done].
  intros Hv. exists v. split; [done|]. by destruct (truthy v).
Qed.

Lemma autoheal_off_true c : autoheal_off c = true -> autoheal_false_or_absent c.
Proof.
  unfold autoheal_off, autoheal_false_or_absent.
  destruct (c !! "autoheal") as [v|]; [|by left].
  intros Hv. right. exists v. split; [done|]. by destruct (truthy v).
Qed.

(** ** Further properties of a cycle *)

(** X1.  In every cycle the hooks dispatched are none, the pre hook alone,
    or the pre hook followed by the post hook: the post hook never runs
    without the pre hook, and no hook runs twice. *)
Theorem X1_hooks_in_order {World} (C : Collaborators World) (now : datetime) (w : World) :
  let tr := calls (snd (cycle C now w)) in
  hook_slots tr = [] \/
  hook_slots tr = ["pre_auto_attach"] \/
  hook_slots tr = ["pre_auto_attach"; "post_auto_attach"].
Proof.
  intros tr; subst tr.
  paths (cycle_path C now w); try heals; auto.
Qed.

(** X2.  Every hook dispatch of a cycle names the identity's uuid.  The pre
    hook carries no entitlement data; the post hook carries exactly the
    grants that an earlier bind call of the cycle returned. *)
Theorem X2_hook_arguments {World} (C : Collaborators World) (now : datetime) (w : World)
    (slot u : string) (data : option (list dict)) (r : Res unit) :
  let uuid := identity_uuid C in
  let tr := calls (snd (cycle C now w)) in
  In (EvRun slot u data r) tr ->
  u = uuid /\
  ((slot = "pre_auto_attach" /\ data = None) \/
   (slot = "post_auto_attach" /\
    exists d ents, data = Some ents /\
      precedes (EvBind uuid d (Returned ents)) (EvRun slot u data r) tr)).
Proof.
  intros uuid tr; subst uuid tr. intros Hin.
  paths (cycle_path C now w); absurd_in; heals; absurd_in; simplify_eq.
  all: split; [done|]; first [ by left | right; split; [done|] ].
  all: do 2 eexists; split; [done|]; prec.
Qed.

(** X3.  The certificate refresh is called at most once in a cycle, and only
    after a bind call returned grants and the post hook dispatched with them
    returned. *)
Theorem X3_update_needs_bind_and_post {World} (C : Collaborators World) (now : datetime)
    (w : World) (r : Res EntCertUpdateReport) :
  let uuid := identity_uuid C in
  let tr := calls (snd (cycle C now w)) in
  In (EvUpdate r) tr ->
  update_calls tr = [r] /\
  exists d ents,
    precedes (EvBind uuid d (Returned ents))
             (EvRun "post_auto_attach" uuid (Some ents) (Returned tt)) tr /\
    precedes (EvRun "post_auto_attach" uuid (Some ents) (Returned tt))
             (EvUpdate r) tr.
Proof.
  intros uuid tr; subst uuid tr. intros Hin.
  paths (cycle_path C now w); absurd_in; heals; absurd_in; simplify_eq.
  all: split; [done|]; do 2 eexists; split; prec_far.
Qed.

(** X4.  A bind call of a cycle names the identity's uuid, follows a pre hook
    that returned, and targets one of two instants only: [now], when
    [cs.is_valid()] returned False, or [now + 24h], when it returned True
    and [cs.compliant_until] lies strictly before [now + 24h]. *)
Theorem X4_bind_target {World} (C : Collaborators World) (now : datetime) (w : World)
    (u : string) (d : datetime) (r : Res (list dict)) :
  let uuid := identity_uuid C in
  let tr := calls (snd (cycle C now w)) in
  let tomorrow := now + timedelta_days 1 in
  In (EvBind u d r) tr ->
  u = uuid /\
  precedes (EvRun "pre_auto_attach" uuid None (Returned tt)) (EvBind u d r) tr /\
  ((d = now /\ In (EvIsValid (Returned false)) tr) \/
   (d = tomorrow /\ In (EvIsValid (Returned true)) tr /\
    exists until, In (EvCompliantUntil (Some until)) tr /\ until < tomorrow)).
Proof.
  intros uuid tr tomorrow; subst uuid tr tomorrow. intros Hin.
  paths (cycle_path C now w); absurd_in; heals; absurd_in; simplify_eq.
  all: split; [done|]; split; [prec|].
  all: first [ left; split; [done|]; simpl; by auto
             | right; split; [done|]; split; [simpl; by auto|];
               eexists; split; [simpl; by auto|]; lia ].
Qed.

(** X5.  What a cycle hands back tells whether auto-heal is on: a report is
    returned exactly when the account lookup returned a record whose
    autoheal value is truthy; an integer is returned only as [0], when
    the lookup was the only call and the flag is falsy or absent. *)
Theorem X5_result_shape {World} (C : Collaborators World) (now : datetime) (w : World) :
  let uuid := identity_uuid C in
  let cy := cycle C now w in
  let tr := calls (snd cy) in
  ((exists r, fst cy = Returned (RReport r)) <->
   (exists c, In (EvGetConsumer uuid (Returned c)) tr /\ autoheal_on c)) /\
  (forall n, fst cy = Returned (RInt n) ->
     n = 0 /\ exists c, tr = [EvGetConsumer uuid (Returned c)] /\
                        autoheal_false_or_absent c).
Proof.
  intros uuid cy tr; subst uuid cy tr.
  paths (cycle_path C now w); try heals.
  all: split; [split|].
  all: try (intros (? & ?); simplify_eq; fail).
  all: try (intros ? ?; simplify_eq; fail).
  all: try (intros _; eexists; split; [left; reflexivity | by apply autoheal_off_false]).
  all: try (intros _; by eexists).
  - intros (c & Hin & Hon). absurd_in.
  - intros (c' & Hin & Hon%autoheal_on_off). absurd_in; simplify_eq. congruence.
  - intros n Hn. simplify_eq. split; [done|]. eexists; split; [done|].
    by apply autoheal_off_true.
Qed.

(** X6.  The account lookup is the first call of every cycle, made once, with
    the identity's uuid.  Either it is the only call, or it returned a record
    with auto-heal on and the validity check follows it directly, made once
    as well. *)
Theorem X6_lookup_then_validity {World} (C : Collaborators World) (now : datetime)
    (w : World) :
  let uuid := identity_uuid C in
  let tr := calls (snd (cycle C now w)) in
  (exists r, tr = [EvGetConsumer uuid r]) \/
  (exists c rv rest,
     tr = EvGetConsumer uuid (Returned c) :: EvIsValid rv :: rest /\
     autoheal_on c /\
     forall ev, In ev rest ->
       is_account_lookup ev = false /\ forall rv', ev <> EvIsValid rv').
Proof.
  intros uuid tr; subst uuid tr.
  paths (cycle_path C now w); try heals.
  all: first [ left; by eexists | right ].
  all: do 3 eexists; split; [reflexivity|]; split; [by apply autoheal_off_false|].
  all: intros ev Hin; simpl in Hin; absurd_in; subst ev; by split.
Qed.

(** X7.  When a call of a cycle raises, the log tells it apart: after a
    failed account lookup nothing at all is logged; after any other failed
    call the log ends with the error message followed by the exception. *)
Theorem X7_error_log {World} (C : Collaborators World) (now : datetime) (w : World)
    (ev : Event) (e : Exception) :
  let cy := cycle C now w in
  In ev (calls (snd cy)) ->
  raised_by ev = Some e ->
  if is_account_lookup ev then log (snd cy) = []
  else exists l, log (snd cy) =
                 l ++ [LogMsg ERROR [Lit "Error attempting to auto-heal:"];
                       LogException e].
Proof.
  intros cy; subst cy. intros Hin Hr.
  paths (cycle_path C now w); try heals.
  all: absurd_in; subst ev; simpl in *; simplify_eq; try done.
  all: first [ by eexists [] | by eexists [_] ].
Qed.

(** X8.  In a cycle where no call raises, nothing is logged at the error
    level; and if auto-heal is on, the last log record is the completion
    note. *)
Theorem X8_quiet_log {World} (C : Collaborators World) (now : datetime) (w : World) :
  let cy := cycle C now w in
  (forall ev, In ev (calls (snd cy)) -> raised_by ev = None) ->
  (forall rec, In rec (log (snd cy)) -> has_level ERROR rec = false) /\
  (forall r, fst cy = Returned (RReport r) ->
     exists l, log (snd cy) = l ++ [LogMsg DEBUG [Lit "Auto-heal check complete."]]).
Proof.
  intros cy; subst cy. intros Hq.
  paths (cycle_path C now w); try heals.
  all: try match goal with
       | H : context [Raised ?e] |- _ =>
           exfalso;
           first [ by specialize (H (EvGetConsumer _ (Raised e)) ltac:(auto 10))
                 | by specialize (H (EvIsValid (Raised e)) ltac:(auto 10))
                 | by specialize (H (EvRun _ _ _ (Raised e)) ltac:(auto 10))
                 | by specialize (H (EvBind _ _ (Raised e)) ltac:(auto 10))
                 | by specialize (H (EvUpdate (Raised e)) ltac:(auto 10)) ]
       end.
  all: split; [intros rec Hin; absurd_in; by subst rec | intros r' Hr'; simplify_eq].
  all: first [ by eexists [_] | by eexists [_; _] ].
Qed.

(** X9.  The summary logged at the end of a cycle that completes: it says
    valid today and tomorrow exactly when the expiry read is not before
    [now + 24h]; it says valid today only exactly when the expiry is
    unknown or a heal for tomorrow went through; it says neither exactly
    when a heal for today went through. *)
Theorem X9_summary_message {World} (C : Collaborators World) (now : datetime) (w : World) :
  let cy := cycle C now w in
  let tr := calls (snd cy) in
  let tomorrow := now + timedelta_days 1 in
  let checked := Lit "Entitlement auto healing was checked and entitlements" in
  (In (LogMsg DEBUG [checked; Lit " are valid today "; Arg now;
                     Lit " and tomorrow "; Arg tomorrow]) (log (snd cy)) <->
   exists until, In (EvCompliantUntil (Some until)) tr /\ tomorrow <= until) /\
  (In (LogMsg DEBUG [checked; Lit " are valid today "; Arg now]) (log (snd cy)) <->
   In (EvCompliantUntil None) tr \/
   (In (EvIsValid (Returned true)) tr /\ exists r, In (EvUpdate (Returned r)) tr)) /\
  (In (LogMsg DEBUG [checked]) (log (snd cy)) <->
   In (EvIsValid (Returned false)) tr /\ exists r, In (EvUpdate (Returned r)) tr).
Proof.
  intros cy tr tomorrow checked; subst cy tr tomorrow checked.
  paths (cycle_path C now w); try heals.
  all: split; [|split]; split; intros Hyp.
  all: repeat match goal with
       | H : _ /\ _ |- _ => destruct H
       | H : exists _, _ |- _ => destruct H
       | H : _ \/ _ |- _ => destruct H
       | H : False |- _ => destruct H
       end; simplify_eq; try lia.
  all: first [ by (simpl; auto 12)
             | by (eexists; split; [simpl; auto 12 | lia])
             | by (left; simpl; auto 12)
             | by (right; split; [simpl; auto 12 | eexists; simpl; auto 12])
             | by (split; [simpl; auto 12 | eexists; simpl; auto 12]) ].
Qed.

(** ** [perform] run again on the same action *)

(** X10.  When [perform] runs on an action whose report already holds
    errors and a call inside the [try] raises, the report returned keeps
    the grants and the earlier errors and has the new exception appended
    last. *)
Theorem X10_perform_keeps_earlier_errors {World} (C : Collaborators World)
    (now : datetime) (w : World) (r0 : EntCertUpdateReport)
    (ev : Event) (e : Exception) :
  let p := perform_on C now w r0 in
  In ev (calls (snd p)) ->
  raised_by ev = Some e ->
  is_account_lookup ev = false ->
  fst p = Returned (RReport {| grants := grants r0;
                               _exceptions := _exceptions r0 ++ [e] |}).
Proof.
  intros p; subst p. intros Hin Hr Hl.
  perform_paths (perform_path C now w r0); try heals.
  all: absurd_in; subst ev; simpl in *; by simplify_eq.
Qed.

(** X11.  When [perform] runs on an action whose report already holds
    errors and the certificate refresh returns, the report returned is the
    refresh's: what the action's report held before is dropped. *)
Theorem X11_perform_replaces_report {World} (C : Collaborators World)
    (now : datetime) (w : World) (r0 r1 : EntCertUpdateReport) :
  let p := perform_on C now w r0 in
  In (EvUpdate (Returned r1)) (calls (snd p)) ->
  fst p = Returned (RReport r1) /\ self_report (snd p) = r1.
Proof.
  intros p; subst p. intros Hin.
  pose proof (perform_path C now w r0) as HP.
  unfold perform_on, perform in *.
  unfold mbind, M_bind, mret, M_ret, try_except_else, getConsumer, invoke in *.
  simpl in *.
  destruct (uep_getConsumer C (identity_uuid C) w) as [[c|e] w1]; simpl in *;
    [|absurd_in].
  destruct (autoheal_off c); simpl in *; [absurd_in|].
  unfold is_valid, invoke in *; simpl in *.
  destruct (cs_is_valid C w1) as [[[|]|e] w2]; simpl in *; [| |absurd_in].
  - unfold compliant_until in *; simpl in *.
    destruct (cs_compliant_until C w2) as [until|]; simpl in *; [|absurd_in].
    destruct (now + timedelta_days 1 >? until); simpl in *; [|absurd_in].
    clear HP. revert Hin. heal_steps C; intros Hin; absurd_in; by simplify_eq.
  - clear HP. revert Hin. heal_steps C; intros Hin; absurd_in; by simplify_eq.
Qed.

(** X12.  When [perform] runs with auto-heal on, the validity check returns
    True and no hook is dispatched (the expiry is unknown or not before
    [now + 24h]), the action's report is returned as it was. *)
Theorem X12_perform_returns_report_untouched {World} (C : Collaborators World)
    (now : datetime) (w : World) (r0 : EntCertUpdateReport) :
  let p := perform_on C now w r0 in
  In (EvIsValid (Returned true)) (calls (snd p)) ->
  hook_slots (calls (snd p)) = [] ->
  fst p = Returned (RReport r0).
Proof.
  intros p; subst p. intros Hin Hh.
  perform_paths (perform_path C now w r0); absurd_in; try done.
  all: heals; simplify_eq.
Qed.

(** ** Cycles in sequence *)

(** X13.  [_do_update] builds a new action each time, so a cycle started in
    any state, whatever report, calls and log an earlier cycle left, hands
    back what a first cycle in the same world hands back, and only appends
    its own calls and log records to those already there. *)
Theorem X13_cycles_start_fresh {World} (C : Collaborators World) (now : datetime)
    (s : State World) :
  let p := _do_update C now s in
  let cy := cycle C now (world s) in
  fst p = fst cy /\
  calls (snd p) = calls s ++ calls (snd cy) /\
  log (snd p) = log s ++ log (snd cy) /\
  self_report (snd p) = self_report (snd cy) /\
  world (snd p) = world (snd cy).
Proof.
  intros p cy; subst p cy. destruct s as [w r0 tr lg].
  unfold cycle, _do_update, perform, HealingUpdateAction_init.
  unfold mbind, M_bind, mret, M_ret, try_except_else, set_report, getConsumer, invoke.
  simpl.
  destruct (uep_getConsumer C (identity_uuid C) w) as [[c|e] w1]; simpl.
  2: { by rewrite app_nil_r. }
  destruct (autoheal_off c); simpl; [done|].
  unfold is_valid, invoke; simpl.
  destruct (cs_is_valid C w1) as [[[|]|e] w2]; simpl.
  3: { by rewrite <- !app_assoc. }
  - unfold compliant_until; simpl.
    destruct (cs_compliant_until C w2) as [until|]; simpl.
    2: { by rewrite <- !app_assoc. }
    destruct (now + timedelta_days 1 >? until); simpl.
    2: { by rewrite <- !app_assoc. }
    heal_steps C; by rewrite <- !app_assoc.
  - heal_steps C; by rewrite <- !app_assoc.
Qed.

(** X2 at the scenario where everything succeeds: the post hook. *)
Lemma X2_witness :
  let tr := calls (snd (cycle (scripted sc_heal_today) jan10 0%nat)) in
  "c0ffee" = "c0ffee" /\
  (("post_auto_attach" = "pre_auto_attach" /\ Some [ent1] = None) \/
   ("post_auto_attach" = "post_auto_attach" /\
    exists d ents, Some [ent1] = Some ents /\
      precedes (EvBind "c0ffee" d (Returned ents))
               (EvRun "post_auto_attach" "c0ffee" (Some [ent1]) (Returned tt)) tr)).
Proof.
  apply (X2_hook_arguments (scripted sc_heal_today) jan10 0%nat
           "post_auto_attach" "c0ffee" (Some [ent1]) (Returned tt)).
  here.
Defined.

(** X3 at the scenario where everything succeeds. *)
Lemma X3_witness :
  let tr := calls (snd (cycle (scripted sc_heal_today) jan10 0%nat)) in
  update_calls tr = [Returned EntCertUpdateReport_new] /\
  exists d ents,
    precedes (EvBind "c0ffee" d (Returned ents))
             (EvRun "post_auto_attach" "c0ffee" (Some ents) (Returned tt)) tr /\
    precedes (EvRun "post_auto_attach" "c0ffee" (Some ents) (Returned tt))
             (EvUpdate (Returned EntCertUpdateReport_new)) tr.
Proof.
  apply (X3_update_needs_bind_and_post (scripted sc_heal_today) jan10 0%nat
           (Returned EntCertUpdateReport_new)).
  here.
Defined.

(** X4 at coverage lapsing at noon today: the bind for tomorrow. *)
Lemma X4_witness :
  let tr := calls (snd (cycle (scripted sc_heal_tomorrow) jan10 0%nat)) in
  let tomorrow := jan10 + timedelta_days 1 in
  "c0ffee" = "c0ffee" /\
  precedes (EvRun "pre_auto_attach" "c0ffee" None (Returned tt))
           (EvBind "c0ffee" tomorrow (Returned [ent1])) tr /\
  ((tomorrow = jan10 /\ In (EvIsValid (Returned false)) tr) \/
   (tomorrow = tomorrow /\ In (EvIsValid (Returned true)) tr /\
    exists until, In (EvCompliantUntil (Some until)) tr /\ until < tomorrow)).
Proof.
  apply (X4_bind_target (scripted sc_heal_tomorrow) jan10 0%nat
           "c0ffee" (jan10 + timedelta_days 1) (Returned [ent1])).
  here.
Defined.

(** X7 at a bind call answered by a 503. *)
Lemma X7_witness :
  exists l, log (snd (cycle (scripted sc_bind_fails) jan10 0%nat)) =
            l ++ [LogMsg ERROR [Lit "Error attempting to auto-heal:"];
                  LogException (ServiceError "503 Service Unavailable")].
Proof.
  apply (X7_error_log (scripted sc_bind_fails) jan10 0%nat
           (EvBind "c0ffee" jan10 (Raised (ServiceError "503 Service Unavailable")))
           (ServiceError "503 Service Unavailable")).
  - here.
  - reflexivity.
Defined.

(** X8 at coverage reaching past tomorrow. *)
Lemma X8_witness :
  let cy := cycle (scripted sc_covered) jan10 0%nat in
  (forall rec, In rec (log (snd cy)) -> has_level ERROR rec = false) /\
  (forall r, fst cy = Returned (RReport r) ->
     exists l, log (snd cy) = l ++ [LogMsg DEBUG [Lit "Auto-heal check complete."]]).
Proof.
  apply (X8_quiet_log (scripted sc_covered) jan10 0%nat).
  intros ev Hin. vm_compute in Hin.
  destruct Hin as [<- | [<- | [<- | []]]]; reflexivity.
Defined.

(** X10 at a used action whose refresh step fails. *)
Lemma X10_witness :
  fst (perform_on (scripted sc_update_fails) jan10 0%nat used_report) =
  Returned (RReport
    {| grants := [ent1];
       _exceptions := [ServiceError "410 Gone"] ++
                      [RuntimeError "certificate directory not writable"] |}).
Proof.
  apply (X10_perform_keeps_earlier_errors (scripted sc_update_fails) jan10 0%nat
           used_report
           (EvUpdate (Raised (RuntimeError "certificate directory not writable")))
           (RuntimeError "certificate directory not writable")).
  - here.
  - reflexivity.
  - reflexivity.
Defined.

(** X11 at a used action and a heal that goes through. *)
Lemma X11_witness :
  let p := perform_on (scripted sc_heal_today) jan10 0%nat used_report in
  fst p = Returned (RReport EntCertUpdateReport_new) /\
  self_report (snd p) = EntCertUpdateReport_new.
Proof.
  apply (X11_perform_replaces_report (scripted sc_heal_today) jan10 0%nat
           used_report EntCertUpdateReport_new).
  here.
Defined.

(** X12 at a used action and coverage reaching past tomorrow. *)
Lemma X12_witness :
  fst (perform_on (scripted sc_covered) jan10 0%nat used_report) =
  Returned (RReport used_report).
Proof.
  apply (X12_perform_returns_report_untouched (scripted sc_covered) jan10 0%nat
           used_report).
  - here.
  - reflexivity.
Defined.
